(** * Hello-world project templates (C and C++): greeting, printing, tests

    The repository holds template files for starter projects.  A generator
    replaces the placeholder tokens [__NAME__], [__NAME_UPPER__] and
    [${PROJECT_NAME}] and the result is compiled.  This development embeds

    - [templates/cxx/src/hello.cpp]        ([Cxx.get_greeting], [Cxx.print_greeting]),
    - [templates/cxx/tests/test_hello.cpp] ([TestHelloCxx.main]),
    - [templates/c/tests/test_hello.c]     ([TestHelloC.main]),
    - [templates/cxx/tests/test_main.cpp]  ([TestMain.main]),

    over an explicit program state (the stream buffers and the buffer
    [std::cout] is attached to) and a small state-and-abort monad. *)

From Stdlib Require Import String Ascii ZArith Lia.
From stdpp Require Import base option gmap strings.

Local Open Scope string_scope.

(** Let [simpl] compute an append whose first argument starts with a
    known character. *)
#[local] Arguments String.append !s1 s2 : simpl nomatch.

(* ===================================================================== *)
(** * Text: string literals, searching, placeholder substitution          *)
(* ===================================================================== *)

Module Text.

(** The line feed character, written [\n] in C and C++ literals. *)
Definition LF : ascii := "010"%char.

(** The character a simple escape sequence [\c] of a literal stands for
    (any other character stands for itself; octal and hexadecimal escapes
    are read by [literal_from]). *)
Definition escape (c : ascii) : ascii :=
  match c with
  | "n"%char => LF
  | "t"%char => "009"%char
  | "r"%char => "013"%char
  | "0"%char => "000"%char
  | "a"%char => "007"%char
  | "b"%char => "008"%char
  | "f"%char => "012"%char
  | "v"%char => "011"%char
  | _ => c
  end.

(** The value of an octal digit, of a hexadecimal digit. *)
Definition octal_digit (c : ascii) : option N :=
  let n := N_of_ascii c in
  if (48 <=? n)%N && (n <=? 55)%N then Some (n - 48)%N else None.

Definition hex_digit (c : ascii) : option N :=
  let n := N_of_ascii c in
  if (48 <=? n)%N && (n <=? 57)%N then Some (n - 48)%N
  else if (65 <=? n)%N && (n <=? 70)%N then Some (n - 55)%N
  else if (97 <=? n)%N && (n <=? 102)%N then Some (n - 87)%N
  else None.

(** The character with a given code (one byte). *)
Definition char_of (value : N) : ascii := ascii_of_N (value mod 256).

(** Where the reading of a literal stands: outside an escape sequence,
    right after a backslash, inside an octal escape (the value so far and
    how many more digits it may take; an octal escape has one to three
    digits), or inside a hexadecimal escape (the value so far; it takes
    every hexadecimal digit that follows). *)
Inductive escape_state : Type :=
  | Verbatim
  | Opened
  | Octal (value : N) (more : nat)
  | Hex (value : N).

(** The value of a C or C++ string literal, from the characters written
    between its quotes.  Universal character names ([\u], [\U]) are not
    decoded. *)
Fixpoint literal_from (st : escape_state) (spelling : string) : string :=
  match spelling with
  | "" =>
      match st with
      | Octal v _ | Hex v => String (char_of v) ""
      | Verbatim | Opened => ""
      end
  | String c rest =>
      let verbatim :=
        if Ascii.eqb c "\"%char then literal_from Opened rest
        else String c (literal_from Verbatim rest) in
      match st with
      | Verbatim => verbatim
      | Opened =>
          match octal_digit c with
          | Some d => literal_from (Octal d 2) rest
          | None =>
              if Ascii.eqb c "x"%char then literal_from (Hex 0) rest
              else String (escape c) (literal_from Verbatim rest)
          end
      | Octal v (S more) =>
          match octal_digit c with
          | Some d => literal_from (Octal (8 * v + d) more) rest
          | None => String (char_of v) verbatim
          end
      | Octal v O => String (char_of v) verbatim
      | Hex v =>
          match hex_digit c with
          | Some d => literal_from (Hex (16 * v + d)) rest
          | None => String (char_of v) verbatim
          end
      end
  end.

Definition c_string (spelling : string) : string := literal_from Verbatim spelling.

(** [std::string::empty]. *)
Definition empty (s : string) : bool :=
  match s with "" => true | String _ _ => false end.

(** Does [text] begin with [p]? *)
Fixpoint starts_with (p text : string) : bool :=
  match p, text with
  | "", _ => true
  | String _ _, "" => false
  | String a p', String b text' => Ascii.eqb a b && starts_with p' text'
  end.

(** [std::string::find(needle)] from position 0: the position of the first
    occurrence of [needle], [None] standing for [std::string::npos]. *)
Fixpoint find_at (pos : nat) (needle hay : string) : option nat :=
  if starts_with needle hay then Some pos
  else match hay with
       | "" => None
       | String _ hay' => find_at (S pos) needle hay'
       end.

Definition find (hay needle : string) : option nat := find_at 0 needle hay.

(** [strstr(hay, needle)]: the part of [hay] that begins at the first
    occurrence of [needle], [None] standing for the null pointer. *)
Fixpoint strstr (hay needle : string) : option string :=
  if starts_with needle hay then Some hay
  else match hay with
       | "" => None
       | String _ hay' => strstr hay' needle
       end.

(** Is [c] one of the characters of [s]? *)
Fixpoint has_char (c : ascii) (s : string) : bool :=
  match s with
  | "" => false
  | String a s' => Ascii.eqb a c || has_char c s'
  end.

(** A character that stands for itself between the quotes of a string
    literal and in the array the literal denotes: not the backslash (which
    opens an escape sequence), not the double quote (which closes the
    literal), not a line break (which a literal cannot hold) and not NUL
    (where a C string ends). *)
Definition literal_char (c : ascii) : bool :=
  negb (Ascii.eqb c "\"%char || Ascii.eqb c "034"%char || Ascii.eqb c LF
        || Ascii.eqb c "013"%char || Ascii.eqb c "000"%char).

(** A project name all of whose characters stand for themselves in a
    string literal. *)
Fixpoint plain_name (name : string) : bool :=
  match name with
  | "" => true
  | String c rest => literal_char c && plain_name rest
  end.

(** A [std::string] built from a pointer to characters: the characters
    before the first NUL. *)
Fixpoint until_nul (s : string) : string :=
  match s with
  | "" => ""
  | String c rest => if Ascii.eqb c "000"%char then "" else String c (until_nul rest)
  end.

(** [needle] occurs in [hay]. *)
Definition is_substring (needle hay : string) : Prop :=
  ∃ before after : string, hay = before +:+ needle +:+ after.

(** Modelled from the spec: the generator that resolves the placeholder
    tokens is not part of the repository's sources.  The spec (sections 6
    and 9) describes it as a pure mapping from token to replacement string
    applied by straightforward text replacement, tokens replaced verbatim.
    [substitute token value text] replaces, left to right, every occurrence
    of [token] in [text] by [value]; the text put in is not scanned again.
    [skip] counts the characters of a token occurrence still to be dropped. *)
Fixpoint substitute_from (skip : nat) (token value text : string) : string :=
  match text with
  | "" => ""
  | String c rest =>
      match skip with
      | S k => substitute_from k token value rest
      | O =>
          if negb (empty token) && starts_with token text
          then value +:+ substitute_from (String.length token - 1) token value rest
          else String c (substitute_from 0 token value rest)
      end
  end.

Definition substitute (token value text : string) : string :=
  substitute_from 0 token value text.

End Text.

(* ===================================================================== *)
(** * Programs: state passing with abnormal termination                   *)
(* ===================================================================== *)

Module Run.

(** How a call ends: it returns a value, or the process is aborted by a
    failed [assert] ([abort()], signal SIGABRT), which carries the
    diagnostic of the assertion. *)
Inductive result (A : Type) : Type :=
  | Returned (a : A)
  | Aborted (diagnostic : string).
Arguments Returned {A} a.
Arguments Aborted {A} diagnostic.

(** A program over states [S] that yields an [A]. *)
Definition Prog (S A : Type) : Type := S → result A * S.

Definition ret {S A} (a : A) : Prog S A := λ s, (Returned a, s).

Definition bind {S A B} (p : Prog S A) (k : A → Prog S B) : Prog S B :=
  λ s, match p s with
       | (Returned a, s') => k a s'
       | (Aborted d, s') => (Aborted d, s')
       end.

(** [assert(cond && "message")] of <assert.h> / <cassert>, with NDEBUG not
    defined (no source file defines it): the string literal is a non-null
    pointer, so the asserted expression is [cond]. *)
Definition assert_ {S} (cond : bool) (message : string) : Prog S unit :=
  λ s, if cond then (Returned tt, s) else (Aborted message, s).

(** A call of a function that returns to its caller. *)
Definition call {S} (f : S → S) : Prog S unit := λ s, (Returned tt, f s).

(** The state a program leaves behind. *)
Definition effect {S A} (p : Prog S A) : S → S := λ s, snd (p s).

(** [x != npos], [p != NULL]. *)
Definition found {A} (o : option A) : bool :=
  match o with Some _ => true | None => false end.

End Run.

Notation "x <- c ;; k" := (Run.bind c (λ x, k))
  (at level 100, c at next level, right associativity).
Notation "c ;; k" := (Run.bind c (λ _, k))
  (at level 100, right associativity).

(* ===================================================================== *)
(** * Output streams                                                      *)
(* ===================================================================== *)

Module Iostream.
Import Run.

(** A stream buffer: the characters put into it so far, in order, and the
    length of the prefix already synchronised with the device. *)
Record streambuf : Type := { sequence : string; synced : nat }.

Definition empty_buf : streambuf := {| sequence := ""; synced := 0 |}.

Definition sputn (text : string) (b : streambuf) : streambuf :=
  {| sequence := sequence b +:+ text; synced := synced b |}.

Definition pubsync (b : streambuf) : streambuf :=
  {| sequence := sequence b; synced := String.length (sequence b) |}.

(** The state of a C++ program: the stream buffers that exist, by address,
    and the address of the buffer [std::cout] is attached to.  The
    formatting state of [std::cout] (field width, fill, flags) is not part
    of it: no program embedded here changes it, so every insertion is made
    with the defaults. *)
Record State : Type := { cout_rdbuf : nat; bufs : gmap nat streambuf }.

(** [std::cout.rdbuf()]. *)
Definition cout_get_rdbuf : Prog State nat :=
  λ s, (Returned (cout_rdbuf s), s).

(** [std::cout.rdbuf(sb)] (the previous buffer it returns is not used). *)
Definition cout_set_rdbuf (sb : nat) : Prog State unit :=
  λ s, (Returned tt, {| cout_rdbuf := sb; bufs := bufs s |}).

(** [std::cout << text]. *)
Definition cout_insert (text : string) : Prog State unit :=
  λ s, (Returned tt,
        {| cout_rdbuf := cout_rdbuf s;
           bufs := alter (sputn text) (cout_rdbuf s) (bufs s) |}).

(** [std::cout.flush()]. *)
Definition cout_flush : Prog State unit :=
  λ s, (Returned tt,
        {| cout_rdbuf := cout_rdbuf s;
           bufs := alter pubsync (cout_rdbuf s) (bufs s) |}).

(** [std::cout << std::endl]: a line feed, then a flush. *)
Definition cout_endl : Prog State unit :=
  cout_insert (String Text.LF "") ;; cout_flush.

(** [std::ostringstream captured_output;]: a new, empty string buffer; the
    value is the address of the buffer, [captured_output.rdbuf()]. *)
Definition new_ostringstream : Prog State nat :=
  λ s, let sb := fresh (dom (bufs s)) in
       (Returned sb,
        {| cout_rdbuf := cout_rdbuf s; bufs := <[sb := empty_buf]> (bufs s) |}).

(** The characters in buffer [sb]. *)
Definition contents (sb : nat) (s : State) : string :=
  default "" (sequence <$> bufs s !! sb).

(** [.str()] of the string stream whose buffer is [sb]. *)
Definition str (sb : nat) : Prog State string :=
  λ s, (Returned (contents sb s), s).

End Iostream.

Module Stdio.
Import Run.

(** The state of a C program: the stream [stdout]. *)
Record State : Type := { stdout : Iostream.streambuf }.

(** [printf(text)] for a format without conversions, and [fputs(text,
    stdout)] (the value they return is not used). *)
Definition print (text : string) : Prog State unit :=
  λ s, (Returned tt, {| stdout := Iostream.sputn text (stdout s) |}).

End Stdio.

(* ===================================================================== *)
(** * templates/cxx/src/hello.cpp                                         *)
(* ===================================================================== *)

Module Cxx.
Import Run Iostream.

Section Template.
(** The text the generator puts in place of [${PROJECT_NAME}] in the
    file; it is taken to stay inside the literal (no double quote or line
    break that would end it). *)
Variable PROJECT_NAME : string.

(** The [std::string] that [get_greeting] returns: the generator puts the
    name into the text of the literal, the compiler decodes the literal,
    escape sequences of the name included, and the conversion from the
    character array to [std::string] keeps what comes before the first
    NUL. *)
Definition greeting : string :=
  Text.until_nul
    (Text.c_string
       (Text.substitute "${PROJECT_NAME}" PROJECT_NAME
          "Hello from ${PROJECT_NAME}!\nThis is a C++ project template.")).

Definition get_greeting : Prog State string :=
  ret greeting.

Definition print_greeting : Prog State unit :=
  g <- get_greeting ;;
  cout_insert g ;;
  cout_endl.
End Template.

End Cxx.

(* ===================================================================== *)
(** * The C variant (templates/c/include/__NAME__/hello.h)                *)
(* ===================================================================== *)

Module C.
Import Run.

Section Template.
Variable PROJECT_NAME : string.

(** Modelled from the spec: [hello.c], the file that defines the
    [get_greeting] and [print_greeting] declared in [hello.h], is not
    among the sources.  The spec gives every template a fixed greeting
    string which, for a substituted project name, contains the literal
    substrings "Hello from" and the language name "C project"
    (sections 1, 4 and 8), and gives the C++ greeting in full; the model
    is that sentence with the language name of the C variant. *)
Definition greeting : string :=
  Text.until_nul
    (Text.c_string
       (Text.substitute "${PROJECT_NAME}" PROJECT_NAME
          "Hello from ${PROJECT_NAME}!\nThis is a C project template.")).

(** Modelled from the spec: [get_greeting] of the missing [hello.c]; per
    [hello.h] it returns a static greeting string, here a pointer that is
    not null. *)
Definition get_greeting : Prog Stdio.State (option string) :=
  ret (Some greeting).

(** Modelled from the spec: [print_greeting] of the missing [hello.c],
    "a print operation that writes the greeting to standard output
    followed by a newline" (section 4). *)
Definition print_greeting : Prog Stdio.State unit :=
  g <- get_greeting ;;
  match g with
  | Some text => Stdio.print text ;; Stdio.print (String Text.LF "")
  | None => ret tt
  end.
End Template.

End C.

(* ===================================================================== *)
(** * templates/cxx/tests/test_hello.cpp                                  *)
(* ===================================================================== *)

Module TestHelloCxx.
Import Run Iostream.

Section Linked.
(** [__NAME__::get_greeting] of the library the test is linked with. *)
Variable get_greeting : Prog State string.

Definition main : Prog State Z :=
  greeting <- get_greeting ;;
  assert_ (negb (Text.empty greeting)) "Greeting should not be empty" ;;
  assert_ (found (Text.find greeting "Hello from"))
          "Greeting should contain 'Hello from'" ;;
  assert_ (found (Text.find greeting "C++ project"))
          "Greeting should contain 'C++ project'" ;;
  cout_insert "All tests passed!" ;;
  cout_endl ;;
  ret 0%Z.
End Linked.

End TestHelloCxx.

(* ===================================================================== *)
(** * templates/c/tests/test_hello.c                                      *)
(* ===================================================================== *)

Module TestHelloC.
Import Run.

(** [strstr] on a pointer: past the first assertion the pointer is not
    null; a null pointer has no occurrence to point at. *)
Definition strstr_ptr (hay : option string) (needle : string) : option string :=
  match hay with
  | Some text => Text.strstr text needle
  | None => None
  end.

Section Linked.
(** [get_greeting] of the library the test is linked with; [None] is the
    null pointer. *)
Variable get_greeting : Prog Stdio.State (option string).

Definition main : Prog Stdio.State Z :=
  greeting <- get_greeting ;;
  assert_ (found greeting) "Greeting should not be NULL" ;;
  assert_ (found (strstr_ptr greeting "Hello from"))
          "Greeting should contain 'Hello from'" ;;
  assert_ (found (strstr_ptr greeting "C project"))
          "Greeting should contain 'C project'" ;;
  Stdio.print (Text.c_string "All tests passed!\n") ;;
  ret 0%Z.
End Linked.

End TestHelloC.

(* ===================================================================== *)
(** * templates/cxx/tests/test_main.cpp                                   *)
(* ===================================================================== *)

Module TestMain.
Import Run Iostream.

(** The state in which [hello] is called (after line 10): a new, empty
    buffer exists and [std::cout] is attached to it. *)
Definition redirected (s : State) : State :=
  let sb := fresh (dom (bufs s)) in
  {| cout_rdbuf := sb; bufs := <[sb := empty_buf]> (bufs s) |}.

Section Linked.
(** [hello], declared in the included "hello.hpp", which is not among the
    sources: any function that acts on the program state and returns to
    its caller (and, the formatting of [std::cout] not being part of the
    state, leaves that formatting at its defaults). *)
Variable hello : State → State.

(** Lines 7 to 16: redirect [std::cout] into [captured_output], call
    [hello], restore [std::cout].  The value is the address of the
    buffer of [captured_output]. *)
Definition capture : Prog State nat :=
  original_cout <- cout_get_rdbuf ;;
  captured_output <- new_ostringstream ;;
  cout_set_rdbuf captured_output ;;
  call hello ;;
  cout_set_rdbuf original_cout ;;
  ret captured_output.

(** Lines 18 to 26: compare what was captured with the expected line,
    report and return. *)
Definition check (captured_output : nat) : Prog State Z :=
  output <- str captured_output ;;
  if String.eqb output (Text.c_string "Hello, World!\n") then
    cout_insert "Test passed: hello() output is correct" ;;
    cout_endl ;;
    ret 0%Z
  else
    cout_insert (Text.c_string "Test failed: expected 'Hello, World!\\n', got '") ;;
    cout_insert output ;;
    cout_insert "'" ;;
    cout_endl ;;
    ret 1%Z.

Definition main : Prog State Z :=
  captured_output <- capture ;;
  check captured_output.

(** What [captured_output.str()] holds when [main] is started in [s]: the
    characters in the new buffer once [hello] has returned. *)
Definition captured (s : State) : string :=
  contents (cout_rdbuf (redirected s)) (hello (redirected s)).
End Linked.

End TestMain.

(** The state of a C++ process at the start of [main]: [std::cout] is
    attached to one empty buffer, that of the standard output. *)
Definition initial_state : Iostream.State :=
  {| Iostream.cout_rdbuf := 0; Iostream.bufs := {[ 0 := Iostream.empty_buf ]} |}.

(** The state of a C process at the start of [main]. *)
Definition c_initial_state : Stdio.State :=
  {| Stdio.stdout := Iostream.empty_buf |}.

(** [hello] implemented by the template's own print operation. *)
Definition hello_prints_greeting (PROJECT_NAME : string) : Iostream.State → Iostream.State :=
  Run.effect (Cxx.print_greeting PROJECT_NAME).

(** [hello] implemented as [std::cout << "Hello, World!" << std::endl]. *)
Definition hello_world : Iostream.State → Iostream.State :=
  Run.effect (Iostream.cout_insert "Hello, World!" ;; Iostream.cout_endl).

(** [hello] implemented as [std::cout << text << std::endl]. *)
Definition hello_says (text : string) : Iostream.State → Iostream.State :=
  Run.effect (Iostream.cout_insert text ;; Iostream.cout_endl).

(** The line [test_main.cpp] prints (lines 20 to 25) when [output] is what
    it captured, with the line feed of [std::endl]. *)
Definition verdict_line (output : string) : string :=
  if String.eqb output (Text.c_string "Hello, World!\n")
  then "Test passed: hello() output is correct" +:+ String Text.LF ""
  else Text.c_string "Test failed: expected 'Hello, World!\\n', got '"
       +:+ output +:+ "'" +:+ String Text.LF "".

(* ===================================================================== *)
(** * Facts about text                                                    *)
(* ===================================================================== *)

Section TextFacts.
Import Text.

Lemma append_assoc3 (a b c : string) : (a +:+ b) +:+ c = a +:+ (b +:+ c).
Proof. induction a as [|x a IH]; simpl; [reflexivity | by rewrite IH]. Qed.

Lemma starts_with_append (p rest : string) : starts_with p (p +:+ rest) = true.
Proof.
  induction p as [|x p IH]; simpl; [reflexivity |].
  by rewrite Ascii.eqb_refl, IH.
Qed.

Lemma starts_with_iff (p text : string) :
  starts_with p text = true ↔ ∃ rest, text = p +:+ rest.
Proof.
  split.
  - revert text. induction p as [|x p IH]; intros text H.
    + by exists text.
    + destruct text as [|y text]; simpl in H; [discriminate |].
      apply andb_prop in H as [Hxy Hp].
      apply Ascii.eqb_eq in Hxy as ->.
      destruct (IH _ Hp) as [rest ->]. by exists rest.
  - intros [rest ->]. apply starts_with_append.
Qed.

(** An occurrence is either at the front or in the rest. *)
Lemma is_substring_cons (needle : string) (c : ascii) (hay : string) :
  is_substring needle (String c hay) ↔
  starts_with needle (String c hay) = true ∨ is_substring needle hay.
Proof.
  split.
  - intros ([|b before] & after & H); simpl in H.
    + left. apply starts_with_iff. by exists after.
    + right. injection H as _ ->. by exists before, after.
  - intros [H | (before & after & ->)].
    + apply starts_with_iff in H as [rest H]. by exists "", rest.
    + by exists (String c before), after.
Qed.

Lemma is_substring_empty_hay (needle : string) :
  is_substring needle "" ↔ starts_with needle "" = true.
Proof.
  split.
  - intros ([|b before] & after & H); simpl in H; [| discriminate].
    apply starts_with_iff. by exists after.
  - intros H. apply starts_with_iff in H as [rest H]. by exists "", rest.
Qed.

(** [find] reports a position exactly when there is an occurrence. *)
Lemma found_find_at (pos : nat) (needle hay : string) :
  Run.found (find_at pos needle hay) = true ↔ is_substring needle hay.
Proof.
  revert pos. induction hay as [|c hay IH]; intros pos.
  - rewrite is_substring_empty_hay. simpl.
    destruct (starts_with needle ""); simpl; intuition congruence.
  - rewrite is_substring_cons. simpl find_at.
    destruct (starts_with needle (String c hay)) eqn:E; simpl.
    + intuition.
    + rewrite IH. intuition congruence.
Qed.

Lemma found_find (hay needle : string) :
  Run.found (find hay needle) = true ↔ is_substring needle hay.
Proof. apply found_find_at. Qed.

(** [strstr] returns a pointer exactly when there is an occurrence. *)
Lemma found_strstr (hay needle : string) :
  Run.found (strstr hay needle) = true ↔ is_substring needle hay.
Proof.
  induction hay as [|c hay IH].
  - rewrite is_substring_empty_hay. simpl.
    destruct (starts_with needle ""); simpl; intuition congruence.
  - rewrite is_substring_cons. simpl strstr.
    destruct (starts_with needle (String c hay)) eqn:E; simpl.
    + intuition.
    + rewrite IH. intuition congruence.
Qed.

(** [strstr] and [find] agree on whether there is an occurrence. *)
Lemma found_strstr_find (hay needle : string) :
  Run.found (strstr hay needle) = Run.found (find hay needle).
Proof.
  pose proof (found_strstr hay needle) as Hs.
  pose proof (found_find hay needle) as Hf.
  destruct (Run.found (strstr hay needle)), (Run.found (find hay needle));
    intuition congruence.
Qed.

(** The position does not matter for whether something is found. *)
Lemma found_find_at_pos (p q : nat) (needle hay : string) :
  Run.found (find_at p needle hay) = Run.found (find_at q needle hay).
Proof.
  revert p q. induction hay as [|c hay IH]; intros p q; simpl;
    destruct (starts_with needle _); auto.
Qed.

(** A text that ends in a character foreign to [p] begins with [p] only
    if it does so before that character. *)
Lemma starts_with_before_foreign (p text : string) (c : ascii) (tail : string) :
  has_char c p = false →
  starts_with p (text +:+ String c tail) = starts_with p text.
Proof.
  revert text. induction p as [|x p IH]; intros text H; [reflexivity |].
  simpl in H. apply orb_false_elim in H as [Hx Hp].
  destruct text as [|y text]; simpl.
  - by rewrite Hx.
  - by rewrite IH.
Qed.

(** Appending a tail that opens with a character foreign to [needle]
    and has no occurrence of its own adds no occurrence. *)
Lemma found_find_at_before_foreign (needle text : string) (c : ascii) (tail : string) (pos : nat) :
  has_char c needle = false →
  Run.found (find_at 0 needle (String c tail)) = false →
  Run.found (find_at pos needle (text +:+ String c tail)) =
  Run.found (find_at pos needle text).
Proof.
  intros Hc Htail. revert pos. induction text as [|y text IH]; intros pos.
  - simpl append. rewrite (found_find_at_pos pos 0), Htail.
    destruct needle as [|x needle]; [discriminate Htail | reflexivity].
  - change (String y text +:+ String c tail)
      with (String y (text +:+ String c tail)).
    unfold find_at; fold find_at.
    change (String y (text +:+ String c tail))
      with (String y text +:+ String c tail).
    rewrite (starts_with_before_foreign _ _ _ _ Hc).
    destruct (starts_with needle (String y text)); [reflexivity | apply IH].
Qed.

Example c_string_line_feed :
  c_string "a\nb" = String "a" (String LF "b").
Proof. reflexivity. Qed.

Example c_string_octal_hex :
  c_string "C\40project\x21" = "C project!".
Proof. reflexivity. Qed.

Example c_string_nul :
  until_nul (c_string "Hello from \0!") = "Hello from ".
Proof. reflexivity. Qed.

Example c_string_backslash :
  String.length (c_string "a\\nb") = 4.
Proof. reflexivity. Qed.

Example substitute_twice :
  substitute "${X}" "demo" "a ${X} b ${X}" = "a demo b demo".
Proof. reflexivity. Qed.

Example find_position :
  find "Hello from demo!" "from" = Some 6.
Proof. reflexivity. Qed.

Example find_npos :
  find "Hello, World!" "Hello from" = None.
Proof. reflexivity. Qed.
End TextFacts.

(* ===================================================================== *)
(** * The greeting                                                        *)
(* ===================================================================== *)

Section Greeting.
Import Run Text.

(** What is left of the greeting literals after the placeholder: the
    value, and how it is written in the file. *)
Local Abbreviation cxx_tail := (String "!" (String LF "This is a C++ project template.")).
Local Abbreviation c_tail := (String "!" (String LF "This is a C project template.")).
Local Abbreviation cxx_tail_spelling := "!\nThis is a C++ project template.".
Local Abbreviation c_tail_spelling := "!\nThis is a C project template.".

(** Decoding a literal leaves a plain name as it is. *)
Lemma literal_from_plain (name rest : string) :
  plain_name name = true →
  literal_from Verbatim (name +:+ rest) = name +:+ literal_from Verbatim rest.
Proof.
  induction name as [|c name IH]; intros H; [reflexivity |].
  simpl in H. apply andb_prop in H as [Hc Hname].
  change (String c name +:+ rest) with (String c (name +:+ rest)).
  unfold literal_from; fold literal_from. rewrite (IH Hname).
  unfold literal_char in Hc. apply negb_true_iff in Hc.
  apply orb_false_elim in Hc as [Hc _]. apply orb_false_elim in Hc as [Hc _].
  apply orb_false_elim in Hc as [Hc _]. apply orb_false_elim in Hc as [Hc _].
  by rewrite Hc.
Qed.

(** A plain name holds no NUL. *)
Lemma until_nul_plain (name rest : string) :
  plain_name name = true →
  until_nul (name +:+ rest) = name +:+ until_nul rest.
Proof.
  induction name as [|c name IH]; intros H; [reflexivity |].
  simpl in H. apply andb_prop in H as [Hc Hname].
  change (String c name +:+ rest) with (String c (name +:+ rest)).
  unfold until_nul; fold until_nul. rewrite (IH Hname).
  unfold literal_char in Hc. apply negb_true_iff in Hc.
  apply orb_false_elim in Hc as [_ Hc].
  by rewrite Hc.
Qed.

(** Every greeting opens with the words before the placeholder. *)
Lemma cxx_greeting_prefix (name : string) :
  Cxx.greeting name =
  "Hello from " +:+ until_nul (literal_from Verbatim (name +:+ cxx_tail_spelling)).
Proof. reflexivity. Qed.

Lemma c_greeting_prefix (name : string) :
  C.greeting name =
  "Hello from " +:+ until_nul (literal_from Verbatim (name +:+ c_tail_spelling)).
Proof. reflexivity. Qed.

(** For a plain project name the greeting is the sentence with the name
    in it. *)
Lemma cxx_greeting_eq (name : string) :
  plain_name name = true →
  Cxx.greeting name = "Hello from " +:+ name +:+ cxx_tail.
Proof.
  intros H.
  by rewrite cxx_greeting_prefix, (literal_from_plain _ _ H), (until_nul_plain _ _ H).
Qed.


Lemma cxx_greeting_nonempty (name : string) : Cxx.greeting name ≠ "".
Proof. rewrite cxx_greeting_prefix. discriminate. Qed.

Lemma c_greeting_nonempty (name : string) : C.greeting name ≠ "".
Proof. rewrite c_greeting_prefix. discriminate. Qed.

Lemma cxx_greeting_hello_from (name : string) :
  is_substring "Hello from" (Cxx.greeting name).
Proof.
  exists "", (" " +:+ until_nul (literal_from Verbatim (name +:+ cxx_tail_spelling))).
  reflexivity.
Qed.

Lemma c_greeting_hello_from (name : string) :
  is_substring "Hello from" (C.greeting name).
Proof.
  exists "", (" " +:+ until_nul (literal_from Verbatim (name +:+ c_tail_spelling))).
  reflexivity.
Qed.

Lemma cxx_greeting_language (name : string) :
  plain_name name = true →
  is_substring "C++ project" (Cxx.greeting name).
Proof.
  intros H.
  exists ("Hello from " +:+ name +:+ String "!" (String LF "This is a ")), " template.".
  rewrite (cxx_greeting_eq _ H), !append_assoc3. reflexivity.
Qed.


(** For a plain project name the C++ greeting has an occurrence of
    "C project" exactly when the project name has one. *)
Lemma cxx_greeting_found_c_project (name : string) :
  plain_name name = true →
  found (find (Cxx.greeting name) "C project") = found (find name "C project").
Proof.
  intros H. rewrite (cxx_greeting_eq _ H). unfold find.
  change (found (find_at 11 "C project" (name +:+ cxx_tail)) =
          found (find_at 0 "C project" name)).
  rewrite (found_find_at_pos 0 11).
  apply found_find_at_before_foreign; reflexivity.
Qed.

(** C1. With [${PROJECT_NAME}] resolved to "demo", the C++ [get_greeting]
    returns exactly "Hello from demo!", a line feed, "This is a C++ project
    template.", in every state and without changing it. *)
Theorem cxx_get_greeting_demo (s : Iostream.State) :
  Cxx.get_greeting "demo" s =
  (Returned ("Hello from demo!" +:+ String LF "This is a C++ project template."), s).
Proof. reflexivity. Qed.

(** C3. In both language variants [get_greeting] returns a string that is
    not empty and contains "Hello from", whatever the project name. *)
Theorem get_greeting_nonempty_hello_from
    (name : string) (sx : Iostream.State) (sc : Stdio.State) :
  (∃ g, Cxx.get_greeting name sx = (Returned g, sx) ∧
        g ≠ "" ∧ empty g = false ∧ is_substring "Hello from" g) ∧
  (∃ g, C.get_greeting name sc = (Returned (Some g), sc) ∧
        g ≠ "" ∧ empty g = false ∧ is_substring "Hello from" g).
Proof.
  split.
  - exists (Cxx.greeting name).
    split; [reflexivity |]. split; [apply cxx_greeting_nonempty |].
    split; [reflexivity | apply cxx_greeting_hello_from].
  - exists (C.greeting name).
    split; [reflexivity |]. split; [apply c_greeting_nonempty |].
    split; [reflexivity | apply c_greeting_hello_from].
Qed.




End Greeting.

(* ===================================================================== *)
(** * Printing the greeting                                               *)
(* ===================================================================== *)

Section Printing.
Import Run Text Iostream.

(** Putting [text] into a buffer and flushing it. *)
Local Abbreviation written text := (λ b : streambuf, pubsync (sputn text b)).

(** A text, a line feed and a flush on one buffer are one change of it. *)
Lemma alter_insert_endl (text : string) (sb : nat) (m : gmap nat streambuf) :
  alter pubsync sb (alter (sputn (String LF "")) sb (alter (sputn text) sb m)) =
  alter (written (text +:+ String LF "")) sb m.
Proof.
  rewrite !alter_alter_eq. apply alter_ext. intros b _.
  unfold compose, pubsync, sputn. simpl. by rewrite !append_assoc3.
Qed.

(** A text and a flush on one buffer are one change of it. *)
Lemma alter_pubsync_sputn (text : string) (sb : nat) (m : gmap nat streambuf) :
  alter pubsync sb (alter (sputn text) sb m) = alter (written text) sb m.
Proof. by rewrite alter_alter_eq. Qed.

(** Two texts put one after the other are one text. *)
Lemma alter_sputn_sputn (t1 t2 : string) (sb : nat) (m : gmap nat streambuf) :
  alter (sputn t2) sb (alter (sputn t1) sb m) = alter (sputn (t1 +:+ t2)) sb m.
Proof.
  rewrite alter_alter_eq. apply alter_ext. intros b _.
  unfold compose, sputn. simpl. by rewrite append_assoc3.
Qed.

(** [std::cout << text << std::endl] as one change of the state. *)
Lemma cout_insert_endl (text : string) (s : State) :
  (cout_insert text ;; cout_endl) s =
  (Returned tt,
   {| cout_rdbuf := cout_rdbuf s;
      bufs := alter (written (text +:+ String LF "")) (cout_rdbuf s) (bufs s) |}).
Proof.
  unfold cout_endl, cout_flush, cout_insert, bind. simpl.
  by rewrite alter_insert_endl.
Qed.

Lemma cxx_print_greeting_run (name : string) (s : State) :
  Cxx.print_greeting name s =
  (Returned tt,
   {| cout_rdbuf := cout_rdbuf s;
      bufs := alter (written (Cxx.greeting name +:+ String LF ""))
                    (cout_rdbuf s) (bufs s) |}).
Proof. apply cout_insert_endl. Qed.

Lemma c_print_greeting_run (name : string) (s : Stdio.State) :
  C.print_greeting name s =
  (Returned tt,
   {| Stdio.stdout := sputn (C.greeting name +:+ String LF "") (Stdio.stdout s) |}).
Proof.
  unfold C.print_greeting, C.get_greeting, Stdio.print, bind, ret, sputn. simpl.
  by rewrite append_assoc3.
Qed.

(** C2. In both variants [print_greeting] puts the string returned by
    [get_greeting] and then one line feed on the standard output, and the
    rest of the state is as it was.  For C++ the standard output is the
    buffer [std::cout] is attached to, which is also flushed. *)
Theorem print_greeting_writes_greeting_newline
    (name : string) (sx : State) (sc : Stdio.State) :
  (∃ g, Cxx.get_greeting name sx = (Returned g, sx) ∧
     Cxx.print_greeting name sx =
       (Returned tt,
        {| cout_rdbuf := cout_rdbuf sx;
           bufs := alter (written (g +:+ String LF ""))
                         (cout_rdbuf sx) (bufs sx) |}) ∧
     sequence <$> bufs (effect (Cxx.print_greeting name) sx) !! cout_rdbuf sx =
       (λ b, sequence b +:+ g +:+ String LF "") <$> bufs sx !! cout_rdbuf sx) ∧
  (∃ g, C.get_greeting name sc = (Returned (Some g), sc) ∧
     C.print_greeting name sc =
       (Returned tt,
        {| Stdio.stdout :=
             {| sequence := sequence (Stdio.stdout sc) +:+ g +:+ String LF "";
                synced := synced (Stdio.stdout sc) |} |})).
Proof.
  split.
  - exists (Cxx.greeting name). split; [reflexivity |].
    split; [apply cxx_print_greeting_run |].
    unfold effect. rewrite cxx_print_greeting_run. simpl.
    rewrite lookup_alter_eq. by destruct (bufs sx !! cout_rdbuf sx).
  - exists (C.greeting name). split; [reflexivity |].
    apply c_print_greeting_run.
Qed.

(** C7. [get_greeting] returns the same string in every state and leaves
    the state as it is; [print_greeting] changes the state in one place
    only: one text is put into the buffer of [std::cout]. *)
Theorem get_greeting_pure_print_greeting_one_output
    (name : string) (s1 s2 : State) :
  fst (Cxx.get_greeting name s1) = fst (Cxx.get_greeting name s2) ∧
  fst (Cxx.get_greeting name s1) = Returned (Cxx.greeting name) ∧
  snd (Cxx.get_greeting name s1) = s1 ∧
  fst (Cxx.print_greeting name s1) = Returned tt ∧
  cout_rdbuf (effect (Cxx.print_greeting name) s1) = cout_rdbuf s1 ∧
  ∀ sb : nat,
    bufs (effect (Cxx.print_greeting name) s1) !! sb =
    if decide (sb = cout_rdbuf s1)
    then written (Cxx.greeting name +:+ String LF "") <$> bufs s1 !! sb
    else bufs s1 !! sb.
Proof.
  repeat split; try reflexivity.
  intros sb. unfold effect. rewrite cxx_print_greeting_run. simpl.
  case_decide as E.
  - subst sb. apply lookup_alter_eq.
  - apply lookup_alter_ne. congruence.
Qed.

End Printing.

(* ===================================================================== *)
(** * The test programs                                                   *)
(* ===================================================================== *)

Section Tests.
Import Run Text Iostream.

Local Abbreviation written text := (λ b : streambuf, pubsync (sputn text b)).

(** [test_hello.cpp], assertion by assertion, for a [get_greeting] that
    returns [g]. *)
Lemma test_hello_cxx_run (get_greeting : Prog State string)
    (s s' : State) (g : string) :
  get_greeting s = (Returned g, s') →
  TestHelloCxx.main get_greeting s =
    if empty g then (Aborted "Greeting should not be empty", s')
    else if negb (found (find g "Hello from"))
    then (Aborted "Greeting should contain 'Hello from'", s')
    else if negb (found (find g "C++ project"))
    then (Aborted "Greeting should contain 'C++ project'", s')
    else (Returned 0%Z,
          {| cout_rdbuf := cout_rdbuf s';
             bufs := alter (written ("All tests passed!" +:+ String LF ""))
                           (cout_rdbuf s') (bufs s') |}).
Proof.
  intros H. unfold TestHelloCxx.main, bind at 1. rewrite H.
  unfold bind, assert_.
  destruct (empty g); simpl; [reflexivity |].
  destruct (found (find g "Hello from")); simpl; [| reflexivity].
  destruct (found (find g "C++ project")); simpl; [| reflexivity].
  by rewrite alter_insert_endl.
Qed.

(** [test_hello.c], assertion by assertion, for a [get_greeting] that
    returns the pointer [p]. *)
Lemma test_hello_c_run (get_greeting : Prog Stdio.State (option string))
    (s s' : Stdio.State) (p : option string) :
  get_greeting s = (Returned p, s') →
  TestHelloC.main get_greeting s =
    match p with
    | None => (Aborted "Greeting should not be NULL", s')
    | Some g =>
        if negb (found (strstr g "Hello from"))
        then (Aborted "Greeting should contain 'Hello from'", s')
        else if negb (found (strstr g "C project"))
        then (Aborted "Greeting should contain 'C project'", s')
        else (Returned 0%Z,
              {| Stdio.stdout :=
                   sputn ("All tests passed!" +:+ String LF "") (Stdio.stdout s') |})
    end.
Proof.
  intros H. unfold TestHelloC.main, bind at 1. rewrite H.
  unfold bind, assert_.
  destruct p as [g|]; simpl; [| reflexivity].
  destruct (found (strstr g "Hello from")); simpl; [| reflexivity].
  destruct (found (strstr g "C project")); simpl; reflexivity.
Qed.

(** A string with an occurrence of a string that is not empty is not
    empty. *)
Lemma found_find_not_empty (g needle : string) :
  found (find g needle) = true → empty needle = false → empty g = false.
Proof. destruct g, needle; simpl; try reflexivity; discriminate. Qed.

Lemma test_hello_cxx_passes_iff (get_greeting : Prog State string)
    (s s' : State) (g : string) :
  get_greeting s = (Returned g, s') →
  fst (TestHelloCxx.main get_greeting s) = Returned 0%Z ↔
  is_substring "Hello from" g ∧ is_substring "C++ project" g.
Proof.
  intros H. rewrite (test_hello_cxx_run _ _ _ _ H), <- !found_find.
  destruct (found (find g "Hello from")) eqn:E1.
  - rewrite (found_find_not_empty _ _ E1 eq_refl). simpl.
    destruct (found (find g "C++ project")); simpl; intuition congruence.
  - destruct (empty g); simpl; intuition congruence.
Qed.

Lemma test_hello_cxx_passes_or_aborts (get_greeting : Prog State string)
    (s s' : State) (g : string) :
  get_greeting s = (Returned g, s') →
  fst (TestHelloCxx.main get_greeting s) = Returned 0%Z ∨
  ∃ d, fst (TestHelloCxx.main get_greeting s) = Aborted d.
Proof.
  intros H. rewrite (test_hello_cxx_run _ _ _ _ H).
  destruct (empty g); simpl; [eauto |].
  destruct (found (find g "Hello from")); simpl; [| eauto].
  destruct (found (find g "C++ project")); simpl; eauto.
Qed.

Lemma test_hello_c_passes_iff (get_greeting : Prog Stdio.State (option string))
    (s s' : Stdio.State) (p : option string) :
  get_greeting s = (Returned p, s') →
  fst (TestHelloC.main get_greeting s) = Returned 0%Z ↔
  ∃ g, p = Some g ∧ is_substring "Hello from" g ∧ is_substring "C project" g.
Proof.
  intros H. rewrite (test_hello_c_run _ _ _ _ H).
  destruct p as [g|]; simpl.
  - setoid_rewrite <- found_strstr.
    destruct (found (strstr g "Hello from")) eqn:E1,
             (found (strstr g "C project")) eqn:E2; simpl; split;
      try discriminate; try (intros (g' & [= <-] & ? & ?); congruence).
    intros _. eauto.
  - split; [discriminate | intros (g & ? & _); discriminate].
Qed.

Lemma test_hello_c_passes_or_aborts (get_greeting : Prog Stdio.State (option string))
    (s s' : Stdio.State) (p : option string) :
  get_greeting s = (Returned p, s') →
  fst (TestHelloC.main get_greeting s) = Returned 0%Z ∨
  ∃ d, fst (TestHelloC.main get_greeting s) = Aborted d.
Proof.
  intros H. rewrite (test_hello_c_run _ _ _ _ H).
  destruct p as [g|]; simpl; [| eauto].
  destruct (found (strstr g "Hello from")); simpl; [| eauto].
  destruct (found (strstr g "C project")); simpl; eauto.
Qed.

(** Lines 7 to 16 of [test_main.cpp]: when [hello] has returned,
    [std::cout] is attached to the buffer it had at entry. *)
Lemma test_main_capture_run (hello : State → State) (s : State) :
  TestMain.capture hello s =
  (Returned (cout_rdbuf (TestMain.redirected s)),
   {| cout_rdbuf := cout_rdbuf s;
      bufs := bufs (hello (TestMain.redirected s)) |}).
Proof. reflexivity. Qed.

(** Lines 18 to 26 of [test_main.cpp]. *)
Lemma test_main_check_run (sb : nat) (s : State) :
  TestMain.check sb s =
    if String.eqb (contents sb s) ("Hello, World!" +:+ String LF "")
    then (Returned 0%Z,
          {| cout_rdbuf := cout_rdbuf s;
             bufs := alter (written ("Test passed: hello() output is correct"
                                     +:+ String LF ""))
                           (cout_rdbuf s) (bufs s) |})
    else (Returned 1%Z,
          {| cout_rdbuf := cout_rdbuf s;
             bufs := alter (written ("Test failed: expected 'Hello, World!\n', got '"
                                     +:+ contents sb s +:+ "'" +:+ String LF ""))
                           (cout_rdbuf s) (bufs s) |}).
Proof.
  unfold TestMain.check, bind at 1. unfold str.
  change (c_string "Hello, World!\n") with ("Hello, World!" +:+ String LF "").
  destruct (String.eqb (contents sb s) ("Hello, World!" +:+ String LF "")).
  - unfold bind, cout_insert, cout_endl, cout_flush, bind, ret. simpl.
    by rewrite alter_insert_endl.
  - unfold bind, cout_insert, cout_endl, cout_flush, bind, ret. simpl.
    by rewrite !alter_sputn_sputn, alter_pubsync_sputn.
Qed.

(** [test_main.cpp] from start to end, for any [hello]. *)
Lemma test_main_run (hello : State → State) (s : State) :
  TestMain.main hello s =
  TestMain.check (cout_rdbuf (TestMain.redirected s))
    {| cout_rdbuf := cout_rdbuf s;
       bufs := bufs (hello (TestMain.redirected s)) |}.
Proof. reflexivity. Qed.

Lemma test_main_status (hello : State → State) (s : State) :
  fst (TestMain.main hello s) =
  Returned (if String.eqb (TestMain.captured hello s)
                          ("Hello, World!" +:+ String LF "")
            then 0%Z else 1%Z).
Proof.
  rewrite test_main_run, test_main_check_run.
  change (contents _ _) with (TestMain.captured hello s).
  by destruct (String.eqb _ _).
Qed.

(** What is captured when [hello] is the template's [print_greeting]. *)
Lemma captured_print_greeting (name : string) (s : State) :
  TestMain.captured (hello_prints_greeting name) s =
  Cxx.greeting name +:+ String LF "".
Proof.
  unfold TestMain.captured, hello_prints_greeting, effect, contents.
  rewrite cxx_print_greeting_run. simpl.
  by rewrite lookup_alter_eq, lookup_insert_eq.
Qed.

Lemma test_main_print_greeting (name : string) (s : State) :
  fst (TestMain.main (hello_prints_greeting name) s) = Returned 1%Z.
Proof. rewrite test_main_status, captured_print_greeting. reflexivity. Qed.

End Tests.

(* ===================================================================== *)
(** * What the tests decide                                               *)
(* ===================================================================== *)

Section Verdicts.
Import Run Text Iostream.

Local Abbreviation written text := (λ b : streambuf, pubsync (sputn text b)).

(** C5, the claim as stated fails.  [test_main.cpp] is a test program of
    the repository; with [hello] printing the "demo" greeting the output it
    examines contains both "Hello from" and "C++ project", and yet it
    returns 1; with [hello] printing "Hello, World!" the output contains
    neither, and it returns 0 instead of aborting. *)
Lemma test_main_ignores_substrings :
  (is_substring "Hello from"
     (TestMain.captured (hello_prints_greeting "demo") initial_state) ∧
   is_substring "C++ project"
     (TestMain.captured (hello_prints_greeting "demo") initial_state) ∧
   fst (TestMain.main (hello_prints_greeting "demo") initial_state) = Returned 1%Z) ∧
  (¬ is_substring "Hello from" (TestMain.captured hello_world initial_state) ∧
   fst (TestMain.main hello_world initial_state) = Returned 0%Z).
Proof.
  split; [split; [| split] | split].
  - apply found_find. vm_compute. reflexivity.
  - apply found_find. vm_compute. reflexivity.
  - vm_compute. reflexivity.
  - rewrite <- found_find. vm_compute. discriminate.
  - vm_compute. reflexivity.
Qed.

(** C5, amended.  [test_hello.cpp] and [test_hello.c], linked with a
    [get_greeting] that returns, exit with status 0 exactly when the
    greeting contains "Hello from" and the language name ("C++ project",
    "C project"; for C the pointer must not be null), and are aborted by a
    failed assertion otherwise.  [test_main.cpp] is never aborted. *)
Theorem test_hello_exit_status
    (cxx_get_greeting : Prog State string) (sx sx' : State) (g : string)
    (c_get_greeting : Prog Stdio.State (option string))
    (sc sc' : Stdio.State) (p : option string)
    (hello : State → State) (sm : State) :
  cxx_get_greeting sx = (Returned g, sx') →
  c_get_greeting sc = (Returned p, sc') →
  (fst (TestHelloCxx.main cxx_get_greeting sx) = Returned 0%Z ↔
     is_substring "Hello from" g ∧ is_substring "C++ project" g) ∧
  (fst (TestHelloCxx.main cxx_get_greeting sx) = Returned 0%Z ∨
     ∃ d, fst (TestHelloCxx.main cxx_get_greeting sx) = Aborted d) ∧
  (fst (TestHelloC.main c_get_greeting sc) = Returned 0%Z ↔
     ∃ text, p = Some text ∧
             is_substring "Hello from" text ∧ is_substring "C project" text) ∧
  (fst (TestHelloC.main c_get_greeting sc) = Returned 0%Z ∨
     ∃ d, fst (TestHelloC.main c_get_greeting sc) = Aborted d) ∧
  (∀ d, fst (TestMain.main hello sm) ≠ Aborted d).
Proof.
  intros Hx Hc.
  split; [exact (test_hello_cxx_passes_iff _ _ _ _ Hx) |].
  split; [exact (test_hello_cxx_passes_or_aborts _ _ _ _ Hx) |].
  split; [exact (test_hello_c_passes_iff _ _ _ _ Hc) |].
  split; [exact (test_hello_c_passes_or_aborts _ _ _ _ Hc) |].
  intros d. rewrite test_main_status. discriminate.
Qed.

(** C6, the claim as stated fails: with "demo" substituted and [hello]
    the template's own print operation, [test_main.cpp] returns 1. *)
Lemma test_main_fails_on_demo :
  fst (TestMain.main (hello_prints_greeting "demo") initial_state) ≠ Returned 0%Z.
Proof. vm_compute. discriminate. Qed.

(** C6, amended.  With "demo" substituted, [test_hello.cpp] finds both
    required substrings, prints its line and returns 0, from every state.
    [test_main.cpp] does not examine the greeting: it never returns 0 on
    an output that contains "Hello from", and with [hello] printing the
    "demo" greeting it returns 1. *)
Theorem cxx_tests_on_demo (s : State) (hello : State → State) (sm : State) :
  TestHelloCxx.main (Cxx.get_greeting "demo") s =
    (Returned 0%Z,
     {| cout_rdbuf := cout_rdbuf s;
        bufs := alter (written ("All tests passed!" +:+ String LF ""))
                      (cout_rdbuf s) (bufs s) |}) ∧
  is_substring "Hello from" (Cxx.greeting "demo") ∧
  is_substring "C++ project" (Cxx.greeting "demo") ∧
  fst (TestMain.main (hello_prints_greeting "demo") s) = Returned 1%Z ∧
  ¬ (fst (TestMain.main hello sm) = Returned 0%Z ∧
     is_substring "Hello from" (TestMain.captured hello sm)).
Proof.
  split; [| split; [| split; [| split]]].
  - by rewrite (test_hello_cxx_run _ s s (Cxx.greeting "demo")).
  - apply cxx_greeting_hello_from.
  - by apply cxx_greeting_language.
  - apply test_main_print_greeting.
  - rewrite test_main_status. intros [Hret Hsub].
    destruct (String.eqb_spec (TestMain.captured hello sm)
                ("Hello, World!" +:+ String LF "")) as [E | _];
      [| discriminate Hret].
    rewrite E in Hsub. apply found_find in Hsub. discriminate Hsub.
Qed.

(** C8. [test_main.cpp] is never aborted: it returns 0 when what was
    captured from [hello] is exactly "Hello, World!" and a line feed, and
    returns 1 for everything else. *)
Theorem test_main_returns_0_or_1 (hello : State → State) (s : State) :
  fst (TestMain.main hello s) =
    Returned (if String.eqb (TestMain.captured hello s)
                            ("Hello, World!" +:+ String LF "")
              then 0%Z else 1%Z) ∧
  (fst (TestMain.main hello s) = Returned 0%Z ↔
     TestMain.captured hello s = "Hello, World!" +:+ String LF "") ∧
  (fst (TestMain.main hello s) = Returned 1%Z ↔
     TestMain.captured hello s ≠ "Hello, World!" +:+ String LF "") ∧
  (∀ d, fst (TestMain.main hello s) ≠ Aborted d).
Proof.
  rewrite test_main_status.
  destruct (String.eqb_spec (TestMain.captured hello s)
              ("Hello, World!" +:+ String LF "")) as [E | E].
  - repeat split; intros; try done.
  - repeat split; intros; try done.
Qed.

(** C10. In [test_main.cpp] the buffer of [std::cout] is the one saved at
    entry when the redirect-call-restore part ends; everything printed
    afterwards, on the pass path and on the fail path, goes into that
    buffer, and [std::cout] is attached to it when [main] returns. *)
Theorem test_main_restores_cout (hello : State → State) (s : State) :
  let restored := snd (TestMain.capture hello s) in
  let output := TestMain.captured hello s in
  let message :=
    if String.eqb output ("Hello, World!" +:+ String LF "")
    then "Test passed: hello() output is correct" +:+ String LF ""
    else "Test failed: expected 'Hello, World!\n', got '"
         +:+ output +:+ "'" +:+ String LF "" in
  TestMain.capture hello s =
    (Returned (cout_rdbuf (TestMain.redirected s)), restored) ∧
  cout_rdbuf restored = cout_rdbuf s ∧
  TestMain.main hello s =
    TestMain.check (cout_rdbuf (TestMain.redirected s)) restored ∧
  bufs (snd (TestMain.main hello s)) =
    alter (written message) (cout_rdbuf s) (bufs restored) ∧
  cout_rdbuf (snd (TestMain.main hello s)) = cout_rdbuf s.
Proof.
  intros restored output message.
  split; [reflexivity |]. split; [reflexivity |]. split; [reflexivity |].
  rewrite test_main_run, test_main_check_run.
  change (contents _ _) with output. subst message.
  by destruct (String.eqb output _).
Qed.

(** C5, the amended statement at the "demo" templates. *)
Lemma test_hello_exit_status_demo :
  Cxx.get_greeting "demo" initial_state =
    (Returned (Cxx.greeting "demo"), initial_state) ∧
  C.get_greeting "demo" c_initial_state =
    (Returned (Some (C.greeting "demo")), c_initial_state) ∧
  (fst (TestHelloCxx.main (Cxx.get_greeting "demo") initial_state) = Returned 0%Z ↔
     is_substring "Hello from" (Cxx.greeting "demo") ∧
     is_substring "C++ project" (Cxx.greeting "demo")).
Proof.
  split; [reflexivity |]. split; [reflexivity |].
  apply (test_hello_exit_status
           (Cxx.get_greeting "demo") initial_state initial_state
           (Cxx.greeting "demo")
           (C.get_greeting "demo") c_initial_state c_initial_state
           (Some (C.greeting "demo")) hello_world initial_state);
    reflexivity.
Defined.

(** C9, the claim as stated fails: for the project name "My C project"
    the C++ greeting contains "C project", and the C test's checks pass
    on it. *)
Lemma cxx_greeting_with_c_project_name :
  ∃ g, Cxx.get_greeting "My C project" initial_state = (Returned g, initial_state) ∧
       is_substring "C project" g ∧
       fst (TestHelloC.main (ret (Some g)) c_initial_state) = Returned 0%Z.
Proof.
  exists (Cxx.greeting "My C project").
  split; [reflexivity |]. split; [| vm_compute; reflexivity].
  apply found_find. vm_compute. reflexivity.
Qed.

(** C9, amended.  For a project name made of characters that stand for
    themselves in a string literal, the C++ greeting contains "C project"
    exactly when the project name contains it: the text of the template
    itself has no occurrence.  So the C test's third check fails on the
    C++ greeting of every such name without "C project", "demo" among
    them, and passes for the others. *)
Theorem cxx_greeting_c_project_iff (name : string) (sx : State) (sc : Stdio.State) :
  plain_name name = true →
  Cxx.get_greeting name sx = (Returned (Cxx.greeting name), sx) ∧
  (is_substring "C project" (Cxx.greeting name) ↔ is_substring "C project" name) ∧
  ¬ is_substring "C project" (Cxx.greeting "demo") ∧
  ¬ is_substring "C project"
      (c_string "Hello from ${PROJECT_NAME}!\nThis is a C++ project template.") ∧
  fst (TestHelloC.main (ret (Some (Cxx.greeting name))) sc) =
    if found (find name "C project")
    then Returned 0%Z
    else Aborted "Greeting should contain 'C project'".
Proof.
  intros Hplain.
  split; [reflexivity |].
  split; [by rewrite <- !found_find, cxx_greeting_found_c_project |].
  split; [rewrite <- found_find; vm_compute; discriminate |].
  split; [rewrite <- found_find; vm_compute; discriminate |].
  rewrite (test_hello_c_run _ sc sc (Some (Cxx.greeting name))) by reflexivity.
  rewrite !found_strstr_find, (cxx_greeting_found_c_project _ Hplain).
  replace (found (find (Cxx.greeting name) "Hello from")) with true.
  - simpl. by destruct (found (find name "C project")).
  - symmetry. apply found_find, cxx_greeting_hello_from.
Qed.

(** C9, the amended statement at the project name "demo". *)
Lemma cxx_greeting_c_project_iff_demo :
  plain_name "demo" = true ∧
  (is_substring "C project" (Cxx.greeting "demo") ↔ is_substring "C project" "demo") ∧
  fst (TestHelloC.main (ret (Some (Cxx.greeting "demo"))) c_initial_state) =
    Aborted "Greeting should contain 'C project'".
Proof.
  split; [reflexivity |].
  pose proof (cxx_greeting_c_project_iff "demo" initial_state c_initial_state
                eq_refl) as (_ & Hiff & _ & _ & Hmain).
  split; [exact Hiff | exact Hmain].
Defined.

End Verdicts.

(* ===================================================================== *)
(** * Further properties of the templates and their tests                 *)
(* ===================================================================== *)

Section Further.
Import Run Text Iostream.

Local Abbreviation written text := (λ b : streambuf, pubsync (sputn text b)).

Lemma length_append_sum (a b : string) :
  String.length (a +:+ b) = String.length a + String.length b.
Proof. induction a as [|x a IH]; simpl; [reflexivity | by rewrite IH]. Qed.

(** A common ending can be cancelled. *)
Lemma append_cancel_r (a b tail : string) : a +:+ tail = b +:+ tail → a = b.
Proof.
  revert b. induction a as [|x a IH]; intros [|y b] H; simpl in H.
  - reflexivity.
  - apply (f_equal String.length) in H. simpl in H.
    rewrite length_append_sum in H. lia.
  - apply (f_equal String.length) in H. simpl in H.
    rewrite length_append_sum in H. lia.
  - injection H as -> H. f_equal. by apply IH.
Qed.

(** X3.  Linked with the C++ template, [test_hello.cpp] passes for every
    project name made of characters that stand for themselves in a string
    literal, from every state: it returns 0 and its only effect is the
    line "All tests passed!" on [std::cout]. *)
Theorem test_hello_cxx_passes_every_name (name : string) (s : State) :
  plain_name name = true →
  TestHelloCxx.main (Cxx.get_greeting name) s =
  (Returned 0%Z,
   {| cout_rdbuf := cout_rdbuf s;
      bufs := alter (written ("All tests passed!" +:+ String LF ""))
                    (cout_rdbuf s) (bufs s) |}).
Proof.
  intros Hplain.
  rewrite (test_hello_cxx_run (Cxx.get_greeting name) s s (Cxx.greeting name) eq_refl).
  replace (found (find (Cxx.greeting name) "Hello from")) with true
    by (symmetry; apply found_find, cxx_greeting_hello_from).
  replace (found (find (Cxx.greeting name) "C++ project")) with true
    by (symmetry; apply found_find, cxx_greeting_language, Hplain).
  reflexivity.
Qed.

(** X3 at the project name "demo", from the initial state. *)
Lemma test_hello_cxx_passes_every_name_demo :
  plain_name "demo" = true ∧
  fst (TestHelloCxx.main (Cxx.get_greeting "demo") initial_state) = Returned 0%Z.
Proof.
  split; [reflexivity |].
  rewrite (test_hello_cxx_passes_every_name "demo" initial_state eq_refl).
  reflexivity.
Defined.

(** X4.  [test_hello.cpp], linked with a [get_greeting] that returns [g]:
    the diagnostic of the abort names the first check that fails (empty,
    no "Hello from", no "C++ project"); the test either passes and prints
    its line, or is aborted having printed nothing. *)
Theorem test_hello_cxx_diagnostics (get_greeting : Prog State string)
    (s s' : State) (g : string) :
  get_greeting s = (Returned g, s') →
  (fst (TestHelloCxx.main get_greeting s) = Aborted "Greeting should not be empty"
     ↔ g = "") ∧
  (fst (TestHelloCxx.main get_greeting s) =
     Aborted "Greeting should contain 'Hello from'"
     ↔ g ≠ "" ∧ ¬ is_substring "Hello from" g) ∧
  (fst (TestHelloCxx.main get_greeting s) =
     Aborted "Greeting should contain 'C++ project'"
     ↔ is_substring "Hello from" g ∧ ¬ is_substring "C++ project" g) ∧
  ((fst (TestHelloCxx.main get_greeting s) = Returned 0%Z ∧
    snd (TestHelloCxx.main get_greeting s) =
      {| cout_rdbuf := cout_rdbuf s';
         bufs := alter (written ("All tests passed!" +:+ String LF ""))
                       (cout_rdbuf s') (bufs s') |}) ∨
   (∃ d, fst (TestHelloCxx.main get_greeting s) = Aborted d ∧
         snd (TestHelloCxx.main get_greeting s) = s')).
Proof.
  intros H. rewrite (test_hello_cxx_run _ _ _ _ H), <- !found_find.
  destruct g as [|c g].
  - simpl. repeat split; intros; try discriminate; try tauto; eauto.
  - simpl empty. cbv iota.
    destruct (found (find (String c g) "Hello from")),
             (found (find (String c g) "C++ project")); simpl;
      repeat split; intros; try discriminate; try tauto; eauto;
      intuition discriminate.
Qed.

(** X5.  [test_hello.c], linked with a [get_greeting] that returns the
    pointer [p]: the diagnostic of the abort names the first check that
    fails (null pointer, no "Hello from", no "C project"); the test either
    passes and prints its line on [stdout], or is aborted having printed
    nothing. *)
Theorem test_hello_c_diagnostics (get_greeting : Prog Stdio.State (option string))
    (s s' : Stdio.State) (p : option string) :
  get_greeting s = (Returned p, s') →
  (fst (TestHelloC.main get_greeting s) = Aborted "Greeting should not be NULL"
     ↔ p = None) ∧
  (fst (TestHelloC.main get_greeting s) =
     Aborted "Greeting should contain 'Hello from'"
     ↔ ∃ g, p = Some g ∧ ¬ is_substring "Hello from" g) ∧
  (fst (TestHelloC.main get_greeting s) =
     Aborted "Greeting should contain 'C project'"
     ↔ ∃ g, p = Some g ∧ is_substring "Hello from" g ∧
            ¬ is_substring "C project" g) ∧
  ((fst (TestHelloC.main get_greeting s) = Returned 0%Z ∧
    snd (TestHelloC.main get_greeting s) =
      {| Stdio.stdout :=
           sputn ("All tests passed!" +:+ String LF "") (Stdio.stdout s') |}) ∨
   (∃ d, fst (TestHelloC.main get_greeting s) = Aborted d ∧
         snd (TestHelloC.main get_greeting s) = s')).
Proof.
  intros H. rewrite (test_hello_c_run _ _ _ _ H).
  destruct p as [g|].
  - setoid_rewrite <- found_strstr.
    destruct (found (strstr g "Hello from")) eqn:E1,
             (found (strstr g "C project")) eqn:E2; simpl;
      (split; [split; intros; discriminate |]);
      (split; [split; [intros; try discriminate; exists g; intuition congruence
                      | intros (g' & [= <-] & ?); try reflexivity; congruence] |]);
      (split; [split; [intros; try discriminate; exists g; intuition congruence
                      | intros (g' & [= <-] & ? & ?); try reflexivity; congruence] |]);
      eauto.
  - simpl. split; [done |].
    split; [split; [discriminate | intros (g & ? & _); discriminate] |].
    split; [split; [discriminate | intros (g & ? & _); discriminate] |].
    eauto.
Qed.

(** X4 at the C++ template for "demo". *)
Lemma test_hello_cxx_diagnostics_demo :
  Cxx.get_greeting "demo" initial_state =
    (Returned (Cxx.greeting "demo"), initial_state) ∧
  (fst (TestHelloCxx.main (Cxx.get_greeting "demo") initial_state) =
     Aborted "Greeting should not be empty" ↔ Cxx.greeting "demo" = "").
Proof.
  split; [reflexivity |].
  apply (test_hello_cxx_diagnostics
           (Cxx.get_greeting "demo") initial_state initial_state
           (Cxx.greeting "demo")).
  reflexivity.
Defined.

(** X5 at a [get_greeting] that returns the null pointer. *)
Lemma test_hello_c_diagnostics_null :
  ret None c_initial_state = (Returned (@None string), c_initial_state) ∧
  (fst (TestHelloC.main (ret None) c_initial_state) =
     Aborted "Greeting should not be NULL" ↔ @None string = None).
Proof.
  split; [reflexivity |].
  apply (test_hello_c_diagnostics (ret None) c_initial_state c_initial_state None).
  reflexivity.
Defined.

(** The buffer made for [captured_output] is not the buffer [std::cout]
    was attached to, when that one exists. *)
Lemma redirected_fresh (s : State) (b : streambuf) :
  bufs s !! cout_rdbuf s = Some b →
  cout_rdbuf (TestMain.redirected s) ≠ cout_rdbuf s.
Proof.
  intros H E. unfold TestMain.redirected in E. simpl in E.
  pose proof (is_fresh (dom (bufs s))) as F. rewrite E in F.
  apply F, elem_of_dom. eauto.
Qed.

(** The state [test_main.cpp] ends in. *)
Lemma test_main_final_state (hello : State → State) (s : State) :
  snd (TestMain.main hello s) =
  {| cout_rdbuf := cout_rdbuf s;
     bufs := alter (written (verdict_line (TestMain.captured hello s)))
                   (cout_rdbuf s) (bufs (hello (TestMain.redirected s))) |}.
Proof.
  rewrite test_main_run, test_main_check_run.
  change (contents _ _) with (TestMain.captured hello s).
  unfold verdict_line.
  change (c_string "Hello, World!\n") with ("Hello, World!" +:+ String LF "").
  by destruct (String.eqb (TestMain.captured hello s) _).
Qed.

(** [std::cout << text << std::endl] changes no buffer but the one
    [std::cout] is attached to. *)
Lemma hello_says_frame (text : string) (s : State) (sb : nat) :
  sb ≠ cout_rdbuf s → bufs (hello_says text s) !! sb = bufs s !! sb.
Proof.
  intros H. unfold hello_says, effect. rewrite cout_insert_endl. simpl.
  apply lookup_alter_ne. congruence.
Qed.

(** What [test_main.cpp] does to the buffer [std::cout] had at entry. *)
Lemma test_main_original_buffer
    (hello : State → State) (s : State) (b : streambuf) :
  bufs s !! cout_rdbuf s = Some b →
  bufs (hello (TestMain.redirected s)) !! cout_rdbuf s =
    bufs (TestMain.redirected s) !! cout_rdbuf s →
  bufs (snd (TestMain.main hello s)) !! cout_rdbuf s =
    Some (written (verdict_line (TestMain.captured hello s)) b).
Proof.
  intros Hb Hframe. rewrite test_main_final_state. simpl.
  rewrite lookup_alter_eq, Hframe. unfold TestMain.redirected. simpl.
  rewrite lookup_insert_ne by exact (redirected_fresh s b Hb).
  by rewrite Hb.
Qed.

(** What is captured when [hello] writes [text] and [std::endl]. *)
Lemma captured_hello_says (text : string) (s : State) :
  TestMain.captured (hello_says text) s = text +:+ String LF "".
Proof.
  unfold TestMain.captured, hello_says, effect, contents.
  rewrite cout_insert_endl. simpl.
  by rewrite lookup_alter_eq, lookup_insert_eq.
Qed.

(** X6.  With [hello] being [std::cout << text << std::endl],
    [test_main.cpp] keeps the output of [hello] apart from the buffer
    [std::cout] had at entry: when that buffer exists, what [main] adds to
    it is its one verdict line, flushed; [text] reaches it only inside the
    quotes of the line that reports a failure. *)
Theorem test_main_keeps_output_apart (text : string) (s : State) (b : streambuf) :
  bufs s !! cout_rdbuf s = Some b →
  bufs (snd (TestMain.main (hello_says text) s)) !! cout_rdbuf s =
    Some (written (verdict_line (text +:+ String LF "")) b) ∧
  contents (cout_rdbuf s) (snd (TestMain.main (hello_says text) s)) =
    sequence b +:+
    (if String.eqb text "Hello, World!"
     then "Test passed: hello() output is correct" +:+ String LF ""
     else "Test failed: expected 'Hello, World!\n', got '"
          +:+ text +:+ String LF "'" +:+ String LF "").
Proof.
  intros Hb.
  assert (bufs (hello_says text (TestMain.redirected s)) !! cout_rdbuf s =
          bufs (TestMain.redirected s) !! cout_rdbuf s) as Hframe.
  { apply hello_says_frame. intros E. symmetry in E.
    exact (redirected_fresh s b Hb E). }
  pose proof (test_main_original_buffer _ s b Hb Hframe) as E.
  rewrite captured_hello_says in E.
  split; [exact E |]. unfold contents. rewrite E. simpl. f_equal.
  unfold verdict_line.
  change (c_string "Hello, World!\n") with ("Hello, World!" +:+ String LF "").
  change (c_string "Test failed: expected 'Hello, World!\\n', got '")
    with "Test failed: expected 'Hello, World!\n', got '".
  destruct (String.eqb_spec text "Hello, World!") as [-> | Hne].
  - reflexivity.
  - destruct (String.eqb_spec (text +:+ String LF "")
                ("Hello, World!" +:+ String LF "")) as [H | _].
    + apply append_cancel_r in H. contradiction.
    + by rewrite !append_assoc3.
Qed.

(** X6 at "Hello, World!", from the initial state. *)
Lemma test_main_keeps_output_apart_hello_world :
  bufs initial_state !! cout_rdbuf initial_state = Some empty_buf ∧
  contents (cout_rdbuf initial_state)
    (snd (TestMain.main (hello_says "Hello, World!") initial_state)) =
    "Test passed: hello() output is correct" +:+ String LF "".
Proof.
  split; [reflexivity |].
  exact (proj2 (test_main_keeps_output_apart "Hello, World!" initial_state
                  empty_buf eq_refl)).
Defined.

(** X7.  With [hello] being [std::cout << text << std::endl],
    [test_main.cpp] captures [text] and a line feed, whatever was written
    to [std::cout] before, and passes exactly when [text] is
    "Hello, World!". *)
Theorem test_main_hello_says (text : string) (s : State) :
  TestMain.captured (hello_says text) s = text +:+ String LF "" ∧
  (fst (TestMain.main (hello_says text) s) = Returned 0%Z ↔ text = "Hello, World!") ∧
  (fst (TestMain.main (hello_says text) s) = Returned 1%Z ↔ text ≠ "Hello, World!").
Proof.
  assert (TestMain.captured (hello_says text) s = text +:+ String LF "") as E.
  { unfold TestMain.captured, hello_says, effect, contents.
    rewrite cout_insert_endl. simpl.
    by rewrite lookup_alter_eq, lookup_insert_eq. }
  split; [exact E |]. rewrite test_main_status, E.
  destruct (String.eqb_spec (text +:+ String LF "")
              ("Hello, World!" +:+ String LF "")) as [H | H].
  - apply append_cancel_r in H. by split; split.
  - assert (text ≠ "Hello, World!") by (intros ->; by apply H).
    by split; split.
Qed.

(** X8.  With [hello] being the template's [print_greeting],
    [test_main.cpp] returns 1 for every project name, and the line it adds
    to the buffer [std::cout] had at entry quotes the greeting. *)
Theorem test_main_rejects_print_greeting
    (name : string) (s : State) (b : streambuf) :
  bufs s !! cout_rdbuf s = Some b →
  fst (TestMain.main (hello_prints_greeting name) s) = Returned 1%Z ∧
  contents (cout_rdbuf s) (snd (TestMain.main (hello_prints_greeting name) s)) =
    sequence b +:+ "Test failed: expected 'Hello, World!\n', got '"
    +:+ Cxx.greeting name +:+ String LF "'" +:+ String LF "".
Proof.
  intros Hb. split; [apply test_main_print_greeting |].
  assert (bufs (hello_prints_greeting name (TestMain.redirected s)) !! cout_rdbuf s =
          bufs (TestMain.redirected s) !! cout_rdbuf s) as Hframe.
  { unfold hello_prints_greeting, effect. rewrite cxx_print_greeting_run.
    apply lookup_alter_ne. exact (redirected_fresh s b Hb). }
  unfold contents.
  rewrite (test_main_original_buffer _ s b Hb Hframe), captured_print_greeting.
  unfold verdict_line.
  replace (String.eqb (Cxx.greeting name +:+ String LF "")
             (c_string "Hello, World!\n")) with false by reflexivity.
  change (c_string "Test failed: expected 'Hello, World!\\n', got '")
    with "Test failed: expected 'Hello, World!\n', got '".
  cbn [sequence pubsync sputn]. by rewrite !append_assoc3.
Qed.

(** X8 at "demo", from the initial state. *)
Lemma test_main_rejects_print_greeting_demo :
  bufs initial_state !! cout_rdbuf initial_state = Some empty_buf ∧
  fst (TestMain.main (hello_prints_greeting "demo") initial_state) = Returned 1%Z.
Proof.
  split; [reflexivity |].
  apply (test_main_rejects_print_greeting "demo" initial_state empty_buf).
  reflexivity.
Defined.

End Further.
